(** * Session lifecycle of the MCP practice client

    A shallow embedding of [src/practice.py] (nested scoped resources on an
    [AsyncExitStack]) and of [src/client.py] (the [MCPClient] facade), with
    theorems about acquisition order, teardown order and failure paths.

    Python coroutines are run to completion one after the other, so an
    [await] is an ordinary call in a state-and-exception monad.  Objects that
    are mutated ([self], the exit stack, the session) live in the state. *)

From stdpp Require Import base strings list gmap.

Local Open Scope string_scope.
Set Warnings "-register-all".

(** ** Values, exceptions, results *)

Inductive half := ReadHalf | WriteHalf.

(** The Python values the two programs handle. *)
Inductive value :=
  | VNone
  | VBool (b : bool)
  | VInt (n : Z)
  | VStr (s : string)
  | VTuple (items : list value)
  | VDict (items : list (string * value))
  | VStream (h : half) (url : string)
  | VSession (ref : nat)
  | VFunc (name : string).

(** Python truthiness, as used by [async with] on the value of [__aexit__]. *)
Definition truthy (v : value) : bool :=
  match v with
  | VNone => false
  | VBool b => b
  | VInt n => negb (Z.eqb n 0)
  | VStr s => negb (String.eqb s "")
  | VTuple items => negb (Nat.eqb (length items) 0)
  | VDict items => negb (Nat.eqb (length items) 0)
  | VStream _ _ | VSession _ | VFunc _ => true
  end.

(** [str(v)] for the values that are formatted into f-strings. *)
Definition str (v : value) : string :=
  match v with
  | VStr s => s
  | VNone => "None"
  | VBool true => "True"
  | VBool false => "False"
  | _ => "<object>"
  end.

(** [v == "..."] against a string literal. *)
Definition eq_str (v : value) (lit : string) : bool :=
  match v with
  | VStr s => String.eqb s lit
  | _ => false
  end.

Inductive exn_kind :=
  | AttributeError
  | TypeError
  | ValueError
  | AcquisitionFailure
  | ProtocolMisuseError
  | RemoteToolError
  | ConnectionLostError
  | InvalidArgument
  | TeardownFailure
  | Failure (tag : string).

Global Instance exn_kind_eq_dec : EqDecision exn_kind.
Proof. solve_decision. Defined.

(** An exception: its kind, and the release failures aggregated into it
    (for a [TeardownFailure]) or attached to it as context. *)
Record exn := Exn { kind : exn_kind; teardown_errors : list exn_kind }.

Global Instance exn_eq_dec : EqDecision exn.
Proof. solve_decision. Defined.

Definition raise_kind (k : exn_kind) : exn := Exn k [].

Inductive result (A : Type) :=
  | Ok (a : A)
  | Raise (e : exn).
Arguments Ok {A} a.
Arguments Raise {A} e.

Definition is_ok {A} (r : result A) : bool :=
  match r with Ok _ => true | Raise _ => false end.

(** ** The monad: state passing with exceptions; the state survives a raise *)

Definition M (S A : Type) : Type := S -> result A * S.

Global Instance M_ret {S} : MRet (M S) := λ A a s, (Ok a, s).

Global Instance M_bind {S} : MBind (M S) := λ A B k m s,
  match m s with
  | (Ok a, s') => k a s'
  | (Raise e, s') => (Raise e, s')
  end.

Definition raise {S A} (k : exn_kind) : M S A := λ s, (Raise (raise_kind k), s).

(** ** Observable events *)

(** What can be entered on a stack. *)
Inductive resource :=
  | Conn (name : string)        (* practice.py: the [ctx] of get_connection(name) *)
  | Transport (url : string)    (* client.py: streamablehttp_client(url) *)
  | Session (ref : nat)         (* client.py: ClientSession(read, write) *)
  | Managed (name : string).    (* any other object with enter/exit behaviour *)

Inductive callback :=
  | custom_cleanup              (* practice.py: the closure defined in main *)
  | Deferred (name : string).   (* any other release-only callback *)

(** A ResourceStackEntry: a release step recorded on the stack. *)
Inductive entry :=
  | ExitOf (r : resource)
  | CallbackOf (c : callback).

Global Instance resource_eq_dec : EqDecision resource.
Proof. solve_decision. Defined.
Global Instance callback_eq_dec : EqDecision callback.
Proof. solve_decision. Defined.
Global Instance entry_eq_dec : EqDecision entry.
Proof. solve_decision. Defined.

Inductive request :=
  | Handshake
  | ListTools
  | CallTool (name : string) (input : value).

Inductive event :=
  | Print (line : string)            (* a line written by print() *)
  | PrintArgs (args : list value)    (* print() of several objects *)
  | Acquire (r : resource)           (* an acquire step is invoked *)
  | Release (e : entry)              (* a release step is invoked *)
  | Sent (id : nat) (rq : request).  (* a request goes on the wire *)

(** The release steps of a log, in the order they were invoked. *)
Fixpoint releases (l : list event) : list entry :=
  match l with
  | [] => []
  | Release e :: l' => e :: releases l'
  | _ :: l' => releases l'
  end.

(** The requests of a log, in the order they were sent. *)
Fixpoint sent (l : list event) : list (nat * request) :=
  match l with
  | [] => []
  | Sent id rq :: l' => (id, rq) :: sent l'
  | _ :: l' => sent l'
  end.

Fixpoint prints (l : list event) : list string :=
  match l with
  | [] => []
  | Print s :: l' => s :: prints l'
  | _ :: l' => prints l'
  end.

Fixpoint acquires (l : list event) : list resource :=
  match l with
  | [] => []
  | Acquire r :: l' => r :: acquires l'
  | _ :: l' => acquires l'
  end.

(** ** Protocol data *)

Record Tool := { name : string; inputSchema : value; outputSchema : value }.

Record ListToolsResult := { tools : list Tool }.

Record CallToolResult := { structuredContent : value; isError : bool }.

Inductive SessionState := Uninitialized | Initializing | Ready | Closing | Closed.

Global Instance SessionState_eq_dec : EqDecision SessionState.
Proof. solve_decision. Defined.

Record SessionObj := {
  s_read : value;
  s_write : value;
  s_state : SessionState;
  s_next_id : nat
}.

(** ** The world: the log and the heap of session objects *)

Record World := {
  log : list event;
  sessions : gmap nat SessionObj;
  next_ref : nat
}.

Definition empty_world : World :=
  {| log := []; sessions := ∅; next_ref := 0 |}.

Definition emit (ev : event) : M World unit := λ w,
  (Ok (), {| log := log w ++ [ev]; sessions := sessions w; next_ref := next_ref w |}).

Definition print (line : string) : M World unit := emit (Print line).

Definition set_session (ref : nat) (so : SessionObj) : M World unit := λ w,
  (Ok (), {| log := log w; sessions := <[ref := so]> (sessions w); next_ref := next_ref w |}).

Definition get_session (ref : nat) : M World (option SessionObj) := λ w,
  (Ok (sessions w !! ref), w).

(** ** The environment: what the collaborators outside the program do *)

Record Env := {
  (* does the acquire step of a resource fail? *)
  acquire_outcome : resource -> option exn_kind;
  (* does the release step of an entry fail? *)
  release_outcome : entry -> option exn_kind;
  (* does the server acknowledge the handshake? *)
  handshake_ack : bool;
  (* the descriptors the server lists *)
  server_tools : list Tool;
  (* a tool's answer; None: the server reports a tool-level error *)
  server_invoke : string -> value -> option value
}.

(** ** practice.py: get_connection *)

Module ctx.
(** [ctx.__aenter__] of the class inside get_connection(name):
    prints and returns [name]. *)
Definition __aenter__ (name : string) : M World value :=
  print ("ENTER..." ++ name) ;;
  mret (VStr name).

(** [ctx.__aexit__]: prints; the exception details are not looked at and
    the method falls off its end, so it returns None. *)
Definition __aexit__ (name : string) (exc : option exn) : M World value :=
  print ("EXIT! " ++ name) ;;
  mret VNone.
End ctx.

(** [get_connection(name)] returns a fresh [ctx()] closed over [name]. *)
Definition get_connection (name : string) : M World resource :=
  mret (Conn name).

(** ** Acquire and release steps *)

(** Modelled from the spec: the Transport of section 4.3, an external
    collaborator.  What [streamablehttp_client(url)] yields when entered: the
    two halves of the stream, and the third component that client.py binds
    to [_]. *)
Definition transport_halves (url : string) : value :=
  VTuple [VStream ReadHalf url; VStream WriteHalf url; VFunc "get_session_id"].

Definition outcome {S} (o : option exn_kind) : M S unit :=
  match o with
  | None => mret ()
  | Some k => raise k
  end.

(** The acquire step of a resource.  [ctx] is the code of practice.py; the
    others are collaborators whose success is decided by the environment. *)
Definition acquire (env : Env) (r : resource) : M World value :=
  emit (Acquire r) ;;
  match r with
  | Conn name => ctx.__aenter__ name
  | Transport url =>
      outcome (acquire_outcome env r) ;;
      mret (transport_halves url)
  | Session ref =>
      outcome (acquire_outcome env r) ;;
      mret (VSession ref)
  | Managed name =>
      outcome (acquire_outcome env r) ;;
      mret (VStr name)
  end.

(** Modelled from the spec: the Session's close of section 4.2, whose code
    is not in the repository.  Leaving a session closes it ([Closing ->
    Closed] is entered only via explicit teardown); entering it does not
    change its state. *)
Definition close_session (ref : nat) : M World unit :=
  so ← get_session ref ;
  match so with
  | None => mret ()
  | Some so =>
      set_session ref {| s_read := s_read so; s_write := s_write so;
                         s_state := Closed; s_next_id := s_next_id so |}
  end.

(** The release step of an entry; [exc] is the failure the scope is exiting
    with, if any.  The value a release step returns is dropped: a release
    step yields nothing. *)
Definition release (env : Env) (e : entry) (exc : option exn) : M World unit :=
  emit (Release e) ;;
  match e with
  | ExitOf (Conn name) => ctx.__aexit__ name exc ;; mret ()
  | ExitOf (Session ref) =>
      close_session ref ;;
      outcome (release_outcome env e)
  | ExitOf (Transport _) | ExitOf (Managed _) =>
      outcome (release_outcome env e)
  | CallbackOf custom_cleanup => print "Custom cleanup logic here."
  | CallbackOf (Deferred _) => outcome (release_outcome env e)
  end.

(** ** The Resource Stack *)

Module AsyncExitStack.

(** Modelled from the spec: the Resource Stack of section 4.1.  The source
    imports it as [contextlib.AsyncExitStack]; its code is not part of the
    repository.  [enter] invokes the acquire step and records the release
    step; [push_cleanup] records a release-only callback; [close] walks the
    recorded entries in reverse, invokes every release step once, keeps
    going when one fails, and reports the failures once at the end. *)
Record t := { world : World; exit_callbacks : list entry }.

Definition lift {A} (m : M World A) : M t A := λ st,
  let '(r, w) := m (world st) in
  (r, {| world := w; exit_callbacks := exit_callbacks st |}).

Definition push (e : entry) : M t unit := λ st,
  (Ok (), {| world := world st; exit_callbacks := exit_callbacks st ++ [e] |}).

(** Modelled from the spec: [enter] of section 4.1, which the source calls
    as [stack.enter_async_context(cm)] and whose code is not in the
    repository.  A failing acquire step records nothing and propagates. *)
Definition enter_async_context (env : Env) (r : resource) : M t value :=
  v ← lift (acquire env r) ;
  push (ExitOf r) ;;
  mret v.

(** Modelled from the spec: [push_cleanup] of section 4.1, which the source
    calls as [stack.push_async_callback(cb)]. *)
Definition push_async_callback (c : callback) : M t unit :=
  push (CallbackOf c).

(** Modelled from the spec: the iteration of [close] in section 4.1, whose
    code is not in the repository.  The entries come most recent first;
    [failed] collects the kinds of the release failures in the order they
    occur, and a failure does not stop the loop. *)
Fixpoint unwind (env : Env) (todo : list entry) (exc : option exn)
    (failed : list exn_kind) (w : World) : list exn_kind * World :=
  match todo with
  | [] => (failed, w)
  | e :: todo' =>
      match release env e exc w with
      | (Ok _, w') => unwind env todo' exc failed w'
      | (Raise x, w') => unwind env todo' exc (failed ++ [kind x]) w'
      end
  end.

(** Modelled from the spec: [close] of section 4.1 on scope exit, whose
    code is not in the repository.  Returns whether the scope's failure is
    suppressed, which it never is.  With release failures: a single
    [TeardownFailure] carrying them, unless the scope was already exiting
    with [e], in which case [e] is raised with them attached. *)
Definition __aexit__ (env : Env) (exc : option exn) : M t value := λ st,
  let '(failed, w) := unwind env (rev (exit_callbacks st)) exc [] (world st) in
  let st' := {| world := w; exit_callbacks := [] |} in
  match failed, exc with
  | [], _ => (Ok (VBool false), st')
  | _ :: _, None => (Raise (Exn TeardownFailure failed), st')
  | _ :: _, Some e => (Raise (Exn (kind e) (teardown_errors e ++ failed)), st')
  end.

(** Modelled from the spec: [close] of section 4.1 called outside a scope
    exit, which the source calls as [await stack.aclose()]. *)
Definition aclose (env : Env) : M t unit :=
  __aexit__ env None ;; mret ().

End AsyncExitStack.

(** ** [async with] *)

(** Leaving the scope of an [async with] whose body ended in [r]: the
    manager's [__aexit__] is called with the exception details, and a truthy
    return value suppresses the body's failure (the result is then [None]). *)
Definition exit_scope {S A} (exit : option exn -> M S value) (r : result A)
    : M S (option A) := λ s2,
  match r with
  | Ok a =>
      match exit None s2 with
      | (Ok _, s3) => (Ok (Some a), s3)
      | (Raise e', s3) => (Raise e', s3)
      end
  | Raise e =>
      match exit (Some e) s2 with
      | (Ok flag, s3) => if truthy flag then (Ok None, s3) else (Raise e, s3)
      | (Raise e', s3) => (Raise e', s3)
      end
  end.

(** [async with <enter> as v: <body>].  A failing [enter] propagates
    without [exit] being called. *)
Definition async_with {S V A} (enter : M S V) (exit : option exn -> M S value)
    (body : V -> M S A) : M S (option A) := λ s,
  match enter s with
  | (Raise e, s1) => (Raise e, s1)
  | (Ok v, s1) => let '(r, s2) := body v s1 in exit_scope exit r s2
  end.

(** [async with AsyncExitStack() as stack: body]. *)
Definition with_stack {A} (env : Env) (body : M AsyncExitStack.t A)
    : M World (option A) := λ w,
  let '(r, st) :=
    async_with (mret ()) (AsyncExitStack.__aexit__ env) (λ _, body)
      {| AsyncExitStack.world := w; AsyncExitStack.exit_callbacks := [] |} in
  (r, AsyncExitStack.world st).

(** ** practice.py: main *)

Module practice.
Import AsyncExitStack.

(** The body of the [async with] of main.  [b] is bound only inside the
    [if], hence an option; ['b' in locals()] is [is_Some b]. *)
Definition main_body (env : Env) : M AsyncExitStack.t unit :=
  cm ← lift (get_connection "A") ;
  a ← enter_async_context env cm ;
  b ← (if eq_str a "A" then
         cm ← lift (get_connection "B") ;
         b ← enter_async_context env cm ;
         lift (print ("Using connection: " ++ str a ++ " and " ++ str b)) ;;
         mret (Some b)
       else mret None) ;
  push_async_callback custom_cleanup ;;
  lift (print ("Doing with " ++ str a ++ " and " ++
               match b with Some b => str b | None => "no B" end)).

Definition main (env : Env) : M World (option unit) :=
  with_stack env (main_body env).
End practice.

(** ** The Protocol Session *)

Module ClientSession.

(** Modelled from the spec: the Protocol Session of section 4.2.  The
    source imports it as [mcp.ClientSession]; its code is not part of the
    repository.  A session starts [Uninitialized]; [initialize] is the only
    operation allowed there and moves it to [Ready] on an acknowledged
    handshake and to [Closed] otherwise; [list_tools] and [call_tool] are
    valid only in [Ready]; every request carries a fresh identifier. *)
Definition new (read write : value) : M World resource := λ w,
  let ref := next_ref w in
  (Ok (Session ref),
   {| log := log w;
      sessions := <[ref := {| s_read := read; s_write := write;
                              s_state := Uninitialized; s_next_id := 0 |}]> (sessions w);
      next_ref := S ref |}).

Definition set_state (ref : nat) (so : SessionObj) (st : SessionState) : M World unit :=
  set_session ref {| s_read := s_read so; s_write := s_write so;
                     s_state := st; s_next_id := s_next_id so |}.

(** Modelled from the spec: the correlation discipline of section 4.2.
    Send [rq] tagged with the session's next identifier. *)
Definition send (ref : nat) (so : SessionObj) (st : SessionState) (rq : request)
    : M World SessionObj :=
  let so' := {| s_read := s_read so; s_write := s_write so;
                s_state := st; s_next_id := S (s_next_id so) |} in
  set_session ref so' ;;
  emit (Sent (s_next_id so) rq) ;;
  mret so'.

(** Modelled from the spec: the state check of section 4.2.  The session
    behind [ref], if it is in state [st]; a state error otherwise. *)
Definition expect (ref : nat) (st : SessionState) : M World SessionObj :=
  so ← get_session ref ;
  match so with
  | Some so => if decide (s_state so = st) then mret so else raise ProtocolMisuseError
  | None => raise ProtocolMisuseError
  end.

(** Modelled from the spec: [initialize] of section 4.2, whose code is not
    in the repository.  One handshake; [Ready] when it is acknowledged,
    [Closed] and an initialization failure otherwise; a protocol-misuse
    error when the session is not [Uninitialized]. *)
Definition initialize (env : Env) (ref : nat) : M World unit :=
  so ← expect ref Uninitialized ;
  so ← send ref so Initializing Handshake ;
  if handshake_ack env then set_state ref so Ready
  else set_state ref so Closed ;; raise AcquisitionFailure.

(** Modelled from the spec: [list_tools] of section 4.2, whose code is not
    in the repository.  The descriptors come back as the server sent them. *)
Definition list_tools (env : Env) (ref : nat) : M World ListToolsResult :=
  so ← expect ref Ready ;
  send ref so Ready ListTools ;;
  mret {| tools := server_tools env |}.

Definition is_mapping (v : value) : bool :=
  match v with VDict _ => true | _ => false end.

(** Modelled from the spec: [call_tool] of section 4.2, whose code is not
    in the repository.  Valid only in [Ready]; the name must be non-empty and
    the input a mapping, and nothing is sent otherwise (the spec names no
    error kind for that: [InvalidArgument]); a tool-level error reported by
    the server is a [RemoteToolError]. *)
Definition call_tool (env : Env) (ref : nat) (tool_name : string) (tool_input : value)
    : M World CallToolResult :=
  so ← expect ref Ready ;
  (if String.eqb tool_name "" || negb (is_mapping tool_input)
   then raise InvalidArgument else mret ()) ;;
  send ref so Ready (CallTool tool_name tool_input) ;;
  match server_invoke env tool_name tool_input with
  | Some content => mret {| structuredContent := content; isError := false |}
  | None => raise RemoteToolError
  end.

End ClientSession.

(** [streamablehttp_client(url)]: builds the transport's context manager;
    nothing is opened before it is entered. *)
Definition streamablehttp_client (url : string) : resource := Transport url.

(** ** client.py: MCPClient *)

Module MCPClient.

(** The attributes [__init__] sets. *)
Record t := { url : string; stack : list entry; _sess : value }.

(** The state the methods run in: the world and [self]. *)
Record state := { world : World; self : t }.

Definition __init__ (url : string) : t :=
  {| url := url; stack := []; _sess := VNone |}.

Definition in_world {A} (m : M World A) : M state A := λ s,
  let '(r, w) := m (world s) in
  (r, {| world := w; self := self s |}).

(** Run an operation of [self.stack]. *)
Definition on_stack {A} (m : M AsyncExitStack.t A) : M state A := λ s,
  let '(r, st) :=
    m {| AsyncExitStack.world := world s;
         AsyncExitStack.exit_callbacks := stack (self s) |} in
  (r, {| world := AsyncExitStack.world st;
         self := {| url := url (self s);
                    stack := AsyncExitStack.exit_callbacks st;
                    _sess := _sess (self s) |} |}).

Definition get {A} (f : t -> A) : M state A := λ s, (Ok (f (self s)), s).

Definition set_sess (v : value) : M state unit := λ s,
  (Ok (), {| world := world s;
             self := {| url := url (self s); stack := stack (self s); _sess := v |} |}).

(** [read, write, _ = ...] *)
Definition unpack3 {S} (v : value) : M S (value * value * value) :=
  match v with
  | VTuple [a; b; c] => mret (a, b, c)
  | VTuple _ => raise ValueError
  | _ => raise TypeError
  end.

(** Looking up a session method on [self._sess]. *)
Definition session_of {S} (v : value) : M S nat :=
  match v with
  | VSession ref => mret ref
  | _ => raise AttributeError
  end.

Definition __aenter__ (env : Env) : M state unit :=
  u ← get url ;
  streams ← on_stack (AsyncExitStack.enter_async_context env (streamablehttp_client u)) ;
  '(read, write, _) ← unpack3 streams ;
  cs ← in_world (ClientSession.new read write) ;
  sess ← on_stack (AsyncExitStack.enter_async_context env cs) ;
  set_sess sess ;;
  sess ← get _sess ;
  ref ← session_of sess ;
  in_world (ClientSession.initialize env ref).

(** [*args] are the exception details; the method falls off its end and
    so returns None. *)
Definition __aexit__ (env : Env) (args : option exn) : M state value :=
  on_stack (AsyncExitStack.aclose env) ;;
  mret VNone.

Definition list_tool_names (env : Env) : M state (list string) :=
  sess ← get _sess ;
  ref ← session_of sess ;
  r ← in_world (ClientSession.list_tools env ref) ;
  mret (map name (tools r)).

Definition call_tool (env : Env) (tool_name : string) (tool_input : value)
    : M state CallToolResult :=
  sess ← get _sess ;
  ref ← session_of sess ;
  in_world (ClientSession.call_tool env ref tool_name tool_input).

(** [async with <client> as client: body] on an already built client. *)
Definition scoped {A} (env : Env) (body : M state A) : M state (option A) :=
  async_with (__aenter__ env) (__aexit__ env) (λ _, body).

(** [async with MCPClient(url) as client: body]. *)
Definition with_client {A} (env : Env) (url : string) (body : M state A)
    : M World (option A) := λ w,
  let '(r, s) := scoped env body {| world := w; self := __init__ url |} in
  (r, world s).

Definition main (env : Env) : M World (option unit) :=
  with_client env "http://localhost:8000/mcp"
    (tool_call ← call_tool env "get_greeting" (VDict [("name", VStr "Alice")]) ;
     in_world (emit (PrintArgs [VStr "Tool output:"; structuredContent tool_call]))).

End MCPClient.

(** ** Registration sequences *)

(** One registration on a stack: entering a resource or pushing a callback. *)
Inductive step :=
  | Enter (r : resource)
  | Push (c : callback).

(** Perform the registrations in order, inside the scope of a stack. *)
Fixpoint run_steps (env : Env) (steps : list step) : M AsyncExitStack.t unit :=
  match steps with
  | [] => mret ()
  | Enter r :: steps' =>
      AsyncExitStack.enter_async_context env r ;; run_steps env steps'
  | Push c :: steps' =>
      AsyncExitStack.push_async_callback c ;; run_steps env steps'
  end.

(** Does the acquire step of [r] fail?  That of [ctx] cannot. *)
Definition acquire_fails (env : Env) (r : resource) : bool :=
  match r with
  | Conn _ => false
  | _ => bool_decide (is_Some (acquire_outcome env r))
  end.

(** The entries a sequence gets to register: all of them up to its first
    failing acquire step. *)
Fixpoint registered (env : Env) (steps : list step) : list entry :=
  match steps with
  | [] => []
  | Enter r :: steps' =>
      if acquire_fails env r then [] else ExitOf r :: registered env steps'
  | Push c :: steps' => CallbackOf c :: registered env steps'
  end.


(** ** Facade states and scenarios *)

(** A client straight out of [MCPClient(url)], in world [w]. *)
Definition fresh (url : string) (w : World) : MCPClient.state :=
  {| MCPClient.world := w; MCPClient.self := MCPClient.__init__ url |}.

(** [client.stack.push_async_callback(c)] for each [c], in order. *)
Fixpoint push_all (cs : list callback) : M MCPClient.state unit :=
  match cs with
  | [] => mret ()
  | c :: cs' =>
      MCPClient.on_stack (AsyncExitStack.push_async_callback c) ;; push_all cs'
  end.

(** Does the client hold a session object in [self._sess]? *)
Definition holds_session (s : MCPClient.state) : bool :=
  match MCPClient._sess (MCPClient.self s) with
  | VSession _ => true
  | _ => false
  end.

(** [initialize()] has not yet run for this client: it holds no session, or
    the session it holds is still [Uninitialized]. *)
Definition not_initialized (s : MCPClient.state) : Prop :=
  match MCPClient._sess (MCPClient.self s) with
  | VSession ref =>
      match sessions (MCPClient.world s) !! ref with
      | Some so => s_state so = Uninitialized
      | None => True
      end
  | _ => True
  end.

(** The result is a failure of kind [k]. *)
Definition fails_with {A} (k : exn_kind) (r : result A) : Prop :=
  match r with
  | Raise e => kind e = k
  | Ok _ => False
  end.

(** The state [__aenter__] leaves the session in, by the state [st] the
    handshake ended in and the number [n] of requests sent. *)
Definition session_after (url : string) (st : SessionState) (n : nat) : SessionObj :=
  {| s_read := VStream ReadHalf url; s_write := VStream WriteHalf url;
     s_state := st; s_next_id := n |}.

(** The world after [__aenter__] got as far as building the session: [evs]
    was logged and the session at the next free reference is in state [st]
    with [n] requests sent. *)
Definition acquired_world (w : World) (url : string) (evs : list event)
    (st : SessionState) (n : nat) : World :=
  {| log := (log w ++ evs)%list;
     sessions := <[next_ref w := session_after url st n]> (sessions w);
     next_ref := S (next_ref w) |}.

(** The client after [__aenter__] recorded [stk] and bound [sess]. *)
Definition acquired_self (c : MCPClient.t) (stk : list entry) (sess : value)
    : MCPClient.t :=
  {| MCPClient.url := MCPClient.url c;
     MCPClient.stack := (MCPClient.stack c ++ stk)%list;
     MCPClient._sess := sess |}.

Definition greeting_server (tool_name : string) (tool_input : value) : option value :=
  if String.eqb tool_name "get_greeting"
  then Some (VDict [("result", VStr "Hello, Alice!")])
  else None.

(** Every collaborator succeeds; the server offers one tool. *)
Definition all_ok : Env :=
  {| acquire_outcome := λ _, None;
     release_outcome := λ _, None;
     handshake_ack := true;
     server_tools := [ {| name := "get_greeting"; inputSchema := VNone; outputSchema := VNone |} ];
     server_invoke := greeting_server |}.

(** The transport opens and the session is entered, but the handshake is
    never acknowledged. *)
Definition handshake_times_out : Env :=
  {| acquire_outcome := λ _, None;
     release_outcome := λ _, None;
     handshake_ack := false;
     server_tools := [];
     server_invoke := λ _ _, None |}.

(** Every release step fails. *)
Definition releases_fail : Env :=
  {| acquire_outcome := λ _, None;
     release_outcome := λ _, Some (Failure "release");
     handshake_ack := true;
     server_tools := [];
     server_invoke := λ _ _, None |}.

Definition mcp_url : string := "http://localhost:8000/mcp".


(** The client of the demo once its acquisition succeeded. *)
Definition ready_client : MCPClient.state :=
  (MCPClient.__aenter__ all_ok (fresh mcp_url empty_world)).2.

(** A client that holds a session on which the handshake was never started. *)
Definition entered_not_initialized : MCPClient.state :=
  {| MCPClient.world :=
       {| log := []; sessions := {[ 0 := session_after mcp_url Uninitialized 0 ]};
          next_ref := 1 |};
     MCPClient.self :=
       {| MCPClient.url := mcp_url;
          MCPClient.stack := [ExitOf (Transport mcp_url); ExitOf (Session 0)];
          MCPClient._sess := VSession 0 |} |}.

(** The release steps invoked when the facade is released after a callback
    was pushed on its stack inside the scope. *)
Definition teardown_with_late_callback : list entry :=
  releases (log (MCPClient.world
    (MCPClient.__aexit__ all_ok None
       (push_all [Deferred "flush"] ready_client).2).2)).

(** A client on whose stack a callback was pushed before it was entered. *)
Definition client_with_early_callback : MCPClient.t :=
  {| MCPClient.url := mcp_url;
     MCPClient.stack := [CallbackOf (Deferred "early")];
     MCPClient._sess := VNone |}.

(** The kinds of the failures the release steps of the client's stack
    would end in, were it closed now. *)
Definition teardown_failures (env : Env) (s : MCPClient.state) : list exn_kind :=
  (AsyncExitStack.unwind env (rev (MCPClient.stack (MCPClient.self s))) None []
     (MCPClient.world s)).1.

(** A body of the facade's scope that fails with a tool error. *)
Definition failing_body : M MCPClient.state unit := raise RemoteToolError.

(** How the facade's scope ends when its body fails and the release steps
    fail too. *)
Definition scope_with_failing_teardown : result (option unit) :=
  (MCPClient.scoped releases_fail failing_body (fresh mcp_url empty_world)).1.

(** What the demo of practice.py logs. *)
Definition practice_log : list event :=
  [Acquire (Conn "A"); Print "ENTER...A";
   Acquire (Conn "B"); Print "ENTER...B";
   Print "Using connection: A and B";
   Print "Doing with A and B";
   Release (CallbackOf custom_cleanup); Print "Custom cleanup logic here.";
   Release (ExitOf (Conn "B")); Print "EXIT! B";
   Release (ExitOf (Conn "A")); Print "EXIT! A"].

(** A registration sequence whose third step fails to acquire, in a world
    where every release step fails too. *)
Definition interrupted_steps : list step :=
  [Enter (Managed "a"); Push (Deferred "cb"); Enter (Managed "b"); Enter (Managed "c")].

Definition b_cannot_open : Env :=
  {| acquire_outcome :=
       λ r, if decide (r = Managed "b") then Some (Failure "open") else None;
     release_outcome := λ _, Some (Failure "release");
     handshake_ack := true;
     server_tools := [];
     server_invoke := λ _ _, None |}.


(** ** Further scenarios *)

(** The transport cannot be opened. *)
Definition transport_down : Env :=
  {| acquire_outcome :=
       λ r, match r with Transport _ => Some ConnectionLostError | _ => None end;
     release_outcome := λ _, None;
     handshake_ack := true;
     server_tools := [];
     server_invoke := λ _ _, None |}.

(** The transport opens but the session cannot be entered. *)
Definition session_refused : Env :=
  {| acquire_outcome :=
       λ r, match r with Session _ => Some (Failure "session") | _ => None end;
     release_outcome := λ _, None;
     handshake_ack := true;
     server_tools := [];
     server_invoke := λ _ _, None |}.

(** The release steps [__aenter__] records on the stack of client [c] in
    world [w]: none when the transport fails to open, the transport's when
    the session fails to enter, both otherwise (also when the handshake
    fails afterwards). *)
Definition recorded_by_aenter (env : Env) (w : World) (c : MCPClient.t) : list entry :=
  match acquire_outcome env (Transport (MCPClient.url c)) with
  | Some _ => []
  | None =>
      match acquire_outcome env (Session (next_ref w)) with
      | Some _ => [ExitOf (Transport (MCPClient.url c))]
      | None => [ExitOf (Transport (MCPClient.url c)); ExitOf (Session (next_ref w))]
      end
  end.

(** [stack.enter_async_context(await get_connection(n))] for each name. *)
Definition connections (names : list string) : list step :=
  map (λ n, Enter (Conn n)) names.

(** The state after [__aenter__] ran twice in a row on the same client. *)
Definition entered_twice (env : Env) (s : MCPClient.state) : MCPClient.state :=
  (MCPClient.__aenter__ env (MCPClient.__aenter__ env s).2).2.

(** * Proofs *)

Local Open Scope list_scope.

Ltac unfold_monad :=
  cbv [mbind M_bind mret M_ret raise outcome emit print set_session get_session
       ctx.__aenter__ ctx.__aexit__ get_connection close_session
       AsyncExitStack.lift AsyncExitStack.push
       AsyncExitStack.enter_async_context AsyncExitStack.push_async_callback] in *.

Section LogLemmas.

Lemma releases_app (l1 l2 : list event) :
  releases (l1 ++ l2) = releases l1 ++ releases l2.
Proof.
  induction l1 as [|ev l1 IH]; [reflexivity|].
  destruct ev; simpl; rewrite IH; reflexivity.
Qed.

Lemma sent_app (l1 l2 : list event) :
  sent (l1 ++ l2) = sent l1 ++ sent l2.
Proof.
  induction l1 as [|ev l1 IH]; [reflexivity|].
  destruct ev; simpl; rewrite IH; reflexivity.
Qed.

(** Invoking a release step logs exactly that release, whether the step
    fails or not. *)
Lemma release_releases env e exc w :
  releases (log (release env e exc w).2) = releases (log w) ++ [e].
Proof.
  unfold release. unfold_monad.
  destruct e as [[nm|u|ref|nm]|[|nm]]; simpl;
    repeat match goal with
    | |- context [release_outcome ?env ?e] => destruct (release_outcome env e)
    | |- context [sessions ?w !! ?r] => destruct (sessions w !! r)
    end; simpl; rewrite ?releases_app; simpl; rewrite ?app_nil_r; reflexivity.
Qed.

(** An acquire step releases nothing. *)
Lemma acquire_releases env r w :
  releases (log (acquire env r w).2) = releases (log w).
Proof.
  unfold acquire. unfold_monad.
  destruct r; simpl;
    repeat match goal with
    | |- context [acquire_outcome ?env ?r] => destruct (acquire_outcome env r)
    end; simpl; rewrite ?releases_app; simpl; rewrite ?app_nil_r; reflexivity.
Qed.

Lemma acquire_result env r w :
  is_ok (acquire env r w).1 = negb (acquire_fails env r).
Proof.
  unfold acquire, acquire_fails. unfold_monad.
  destruct r; simpl; try reflexivity;
    match goal with
    | |- context [acquire_outcome ?env ?r] => destruct (acquire_outcome env r)
    end; reflexivity.
Qed.

(** The unwinding loop invokes the release step of every entry it is given,
    in the order given, whatever fails on the way. *)
Lemma unwind_releases env todo exc failed w :
  releases (log (AsyncExitStack.unwind env todo exc failed w).2)
  = releases (log w) ++ todo.
Proof.
  revert failed w. induction todo as [|e todo IH]; intros failed w; simpl.
  - rewrite app_nil_r. reflexivity.
  - pose proof (release_releases env e exc w) as Hrel.
    destruct (release env e exc w) as [[u|x] w']; simpl in Hrel;
      rewrite IH, Hrel, <- app_assoc; reflexivity.
Qed.

(** Closing releases every recorded entry once, most recent first, and
    leaves the stack empty. *)
Lemma aexit_releases env exc st :
  releases (log (AsyncExitStack.world (AsyncExitStack.__aexit__ env exc st).2))
  = releases (log (AsyncExitStack.world st)) ++ rev (AsyncExitStack.exit_callbacks st)
  /\ AsyncExitStack.exit_callbacks (AsyncExitStack.__aexit__ env exc st).2 = [].
Proof.
  unfold AsyncExitStack.__aexit__.
  pose proof (unwind_releases env (rev (AsyncExitStack.exit_callbacks st)) exc []
                (AsyncExitStack.world st)) as H.
  destruct (AsyncExitStack.unwind _ _ _ _ _) as [failed w]; simpl in H.
  destruct failed, exc; simpl; auto.
Qed.

Lemma aclose_releases env st :
  releases (log (AsyncExitStack.world (AsyncExitStack.aclose env st).2))
  = releases (log (AsyncExitStack.world st)) ++ rev (AsyncExitStack.exit_callbacks st)
  /\ AsyncExitStack.exit_callbacks (AsyncExitStack.aclose env st).2 = [].
Proof.
  unfold AsyncExitStack.aclose. unfold_monad.
  pose proof (aexit_releases env None st) as H.
  destruct (AsyncExitStack.__aexit__ env None st) as [[v|x] st']; exact H.
Qed.

(** Running a registration sequence releases nothing and leaves on the stack
    what was there plus what the sequence registered. *)
Lemma run_steps_spec env steps st :
  let st' := (run_steps env steps st).2 in
  releases (log (AsyncExitStack.world st')) = releases (log (AsyncExitStack.world st))
  /\ AsyncExitStack.exit_callbacks st'
     = AsyncExitStack.exit_callbacks st ++ registered env steps.
Proof.
  revert st. induction steps as [|[r|c] steps IH]; intros st; simpl.
  - rewrite app_nil_r. auto.
  - unfold_monad.
    pose proof (acquire_releases env r (AsyncExitStack.world st)) as Hrel.
    pose proof (acquire_result env r (AsyncExitStack.world st)) as Hres.
    destruct (acquire env r (AsyncExitStack.world st)) as [[v|x] w'];
      simpl in Hrel, Hres.
    + destruct (acquire_fails env r); [discriminate|].
      specialize (IH {| AsyncExitStack.world := w';
                        AsyncExitStack.exit_callbacks :=
                          AsyncExitStack.exit_callbacks st ++ [ExitOf r] |}).
      simpl in IH. destruct IH as [IH1 IH2]. simpl.
      rewrite IH1, IH2, Hrel, <- app_assoc. auto.
    + destruct (acquire_fails env r); [|discriminate].
      simpl. rewrite app_nil_r. auto.
  - unfold_monad.
    specialize (IH {| AsyncExitStack.world := AsyncExitStack.world st;
                      AsyncExitStack.exit_callbacks :=
                        AsyncExitStack.exit_callbacks st ++ [CallbackOf c] |}).
    simpl in IH. destruct IH as [IH1 IH2]. simpl.
    rewrite IH1, IH2, <- app_assoc. auto.
Qed.

End LogLemmas.

(** The demo of practice.py, run in any world and any environment. *)
Lemma practice_main_run (env : Env) (w : World) :
  practice.main env w
  = (Ok (Some ()),
     {| log := log w ++ practice_log;
        sessions := sessions w; next_ref := next_ref w |}).
Proof.
  unfold practice.main, practice.main_body, with_stack, async_with, exit_scope.
  unfold_monad. cbv [acquire release AsyncExitStack.__aexit__]. unfold_monad.
  simpl. unfold practice_log. rewrite <- !app_assoc. reflexivity.
Qed.

(** C1.  For every sequence of resources entered on the stack and callbacks
    pushed on it, and whatever acquire or release steps fail, leaving the
    scope of the stack invokes the release steps of exactly the entries that
    were registered, each once, in the reverse of their registration order.
    In main of practice.py: the cleanup callback, then B, then A. *)
Theorem stack_releases_in_reverse_order (env : Env) (steps : list step) (w : World) :
  releases (log (with_stack env (run_steps env steps) w).2)
  = releases (log w) ++ rev (registered env steps)
  /\ releases (log (practice.main env w).2)
     = releases (log w)
       ++ [CallbackOf custom_cleanup; ExitOf (Conn "B"); ExitOf (Conn "A")].
Proof.
  split; [|rewrite practice_main_run; simpl; rewrite releases_app; reflexivity].
  unfold with_stack, async_with, exit_scope. unfold_monad.
  set (st0 := {| AsyncExitStack.world := w; AsyncExitStack.exit_callbacks := [] |}).
  destruct (run_steps_spec env steps st0) as [Hrel Hcbs]. simpl in Hrel, Hcbs.
  destruct (run_steps env steps st0) as [[u|x] st1]; simpl in Hrel, Hcbs.
  - destruct (aexit_releases env None st1) as [H _].
    destruct (AsyncExitStack.__aexit__ env None st1) as [[v|x] st2];
      simpl in *; rewrite H, Hrel, Hcbs; reflexivity.
  - destruct (aexit_releases env (Some x) st1) as [H _].
    destruct (AsyncExitStack.__aexit__ env (Some x) st1) as [[v|x'] st2];
      [destruct (truthy v)|]; simpl in *; rewrite H, Hrel, Hcbs; reflexivity.
Qed.

(** The third acquire step fails and both release steps fail: the callback
    and the first resource are released all the same, most recent first, and
    the acquire failure leaves the scope with the release failures attached. *)
Example interrupted_acquisition_unwinds :
  with_stack b_cannot_open (run_steps b_cannot_open interrupted_steps) empty_world
  = (Raise (Exn (Failure "open") [Failure "release"; Failure "release"]),
     {| log := [Acquire (Managed "a"); Acquire (Managed "b");
                Release (CallbackOf (Deferred "cb")); Release (ExitOf (Managed "a"))];
        sessions := ∅; next_ref := 0 |}).
Proof. vm_compute. reflexivity. Qed.

(** ** The facade's acquisition, case by case *)

Ltac unfold_client :=
  cbv [MCPClient.__aenter__ MCPClient.__aexit__ MCPClient.call_tool
       MCPClient.list_tool_names MCPClient.in_world MCPClient.on_stack
       MCPClient.get MCPClient.set_sess MCPClient.unpack3 MCPClient.session_of
       MCPClient.__init__ fresh streamablehttp_client transport_halves
       ClientSession.new ClientSession.initialize ClientSession.expect
       ClientSession.send ClientSession.set_state ClientSession.list_tools
       ClientSession.call_tool] in *;
  unfold_monad; cbv [acquire] in *; unfold_monad.

Section Acquisition.

Variable env : Env.
Variable w : World.
Variable c : MCPClient.t.

Let u := MCPClient.url c.
Let ref := next_ref w.
Let s0 := {| MCPClient.world := w; MCPClient.self := c |}.

Lemma aenter_cases :
  MCPClient.__aenter__ env s0 =
  match acquire_outcome env (Transport u) with
  | Some k =>
      (Raise (raise_kind k),
       {| MCPClient.world :=
            {| log := log w ++ [Acquire (Transport u)];
               sessions := sessions w; next_ref := ref |};
          MCPClient.self := acquired_self c [] (MCPClient._sess c) |})
  | None =>
      match acquire_outcome env (Session ref) with
      | Some k =>
          (Raise (raise_kind k),
           {| MCPClient.world :=
                acquired_world w u [Acquire (Transport u); Acquire (Session ref)]
                  Uninitialized 0;
              MCPClient.self :=
                acquired_self c [ExitOf (Transport u)] (MCPClient._sess c) |})
      | None =>
          let evs := [Acquire (Transport u); Acquire (Session ref); Sent 0 Handshake] in
          let stk := [ExitOf (Transport u); ExitOf (Session ref)] in
          if handshake_ack env
          then (Ok (),
                {| MCPClient.world := acquired_world w u evs Ready 1;
                   MCPClient.self := acquired_self c stk (VSession ref) |})
          else (Raise (raise_kind AcquisitionFailure),
                {| MCPClient.world := acquired_world w u evs Closed 1;
                   MCPClient.self := acquired_self c stk (VSession ref) |})
      end
  end.
Proof.
  subst s0. unfold acquired_world, acquired_self, session_after.
  unfold_client. simpl. fold u.
  destruct (acquire_outcome env (Transport u)) as [k|]; simpl.
  { rewrite app_nil_r. reflexivity. }
  fold ref.
  destruct (acquire_outcome env (Session ref)) as [k|]; simpl.
  { rewrite <- !app_assoc. reflexivity. }
  rewrite lookup_insert_eq. simpl.
  destruct (handshake_ack env); simpl;
    rewrite !insert_insert_eq, <- !app_assoc; reflexivity.
Qed.

End Acquisition.

(** ** practice.py *)

(** C10.  The acquire step of [get_connection(name)] returns [name], so in
    main the guard [a == "A"] holds: on every run B is acquired, and the last
    line printed by the body names B, never the [no B] placeholder. *)
Theorem main_always_acquires_B (env : Env) (w : World) :
  (∀ nm w0, (ctx.__aenter__ nm w0).1 = Ok (VStr nm))
  ∧ practice.main env w
    = (Ok (Some ()),
       {| log := log w ++ practice_log;
          sessions := sessions w; next_ref := next_ref w |})
  ∧ In (Acquire (Conn "B")) practice_log
  ∧ In "Doing with A and B" (prints practice_log)
  ∧ ¬ In "Doing with A and no B" (prints practice_log).
Proof.
  split; [reflexivity|]. split.
  - apply practice_main_run.
  - repeat split; [simpl; tauto | simpl; tauto |].
    simpl. intros H. repeat destruct H as [H|H]; try discriminate H. exact H.
Qed.

(** ** client.py: teardown *)

Section Teardown.

Variable env : Env.

Lemma push_all_spec (cs : list callback) (s : MCPClient.state) :
  push_all cs s
  = (Ok (),
     {| MCPClient.world := MCPClient.world s;
        MCPClient.self :=
          {| MCPClient.url := MCPClient.url (MCPClient.self s);
             MCPClient.stack := MCPClient.stack (MCPClient.self s) ++ map CallbackOf cs;
             MCPClient._sess := MCPClient._sess (MCPClient.self s) |} |}).
Proof.
  revert s. induction cs as [|c0 cs IH]; intros [w [u stk sess]]; simpl.
  - rewrite app_nil_r. reflexivity.
  - unfold_client. simpl. rewrite IH. simpl. rewrite <- app_assoc. reflexivity.
Qed.

(** [__aexit__] closes the stack: every recorded entry is released once,
    most recent first, and none is left. *)
Lemma client_aexit_releases (args : option exn) (s : MCPClient.state) :
  releases (log (MCPClient.world (MCPClient.__aexit__ env args s).2))
  = releases (log (MCPClient.world s)) ++ rev (MCPClient.stack (MCPClient.self s))
  /\ MCPClient.stack (MCPClient.self (MCPClient.__aexit__ env args s).2) = [].
Proof.
  destruct s as [w [u stk sess]].
  pose proof (aclose_releases env
    {| AsyncExitStack.world := w; AsyncExitStack.exit_callbacks := stk |}) as H.
  unfold MCPClient.__aexit__, MCPClient.on_stack.
  cbv [mbind M_bind mret M_ret]. simpl in *.
  destruct (AsyncExitStack.aclose env _) as [[v|x] st]; simpl in *; exact H.
Qed.

(** What [__aexit__] returns or raises, by the failures of the release
    steps. *)
Lemma client_aexit_result (args : option exn) (s : MCPClient.state) :
  (MCPClient.__aexit__ env args s).1
  = match teardown_failures env s with
    | [] => Ok VNone
    | fs => Raise (Exn TeardownFailure fs)
    end.
Proof.
  destruct s as [w [u stk sess]].
  unfold teardown_failures, MCPClient.__aexit__, MCPClient.on_stack,
    AsyncExitStack.aclose, AsyncExitStack.__aexit__.
  cbv [mbind M_bind mret M_ret]. simpl.
  destruct (AsyncExitStack.unwind env (rev stk) None [] w) as [[|k fs] w'];
    reflexivity.
Qed.

End Teardown.

(** C7, as amended.  On facade release the release steps run in the strict
    reverse of their registration order: the callbacks pushed after the
    acquisition first, most recent first, then the Session's close, then the
    Transport's close, then whatever was recorded on the stack before the
    acquisition. *)
Theorem facade_teardown_order (env : Env) (w : World) (c : MCPClient.t)
    (post : list callback) (args : option exn) :
  (MCPClient.__aenter__ env {| MCPClient.world := w; MCPClient.self := c |}).1 = Ok () ->
  releases (log (MCPClient.world
    (MCPClient.__aexit__ env args
       (push_all post
          (MCPClient.__aenter__ env
             {| MCPClient.world := w; MCPClient.self := c |}).2).2).2))
  = releases (log w)
    ++ rev (map CallbackOf post)
    ++ [ExitOf (Session (next_ref w)); ExitOf (Transport (MCPClient.url c))]
    ++ rev (MCPClient.stack c).
Proof.
  rewrite aenter_cases.
  destruct (acquire_outcome env (Transport (MCPClient.url c))); [discriminate|].
  destruct (acquire_outcome env (Session (next_ref w))); [discriminate|].
  simpl. destruct (handshake_ack env); [|discriminate]. intros _.
  rewrite push_all_spec. simpl.
  destruct (client_aexit_releases env args
    {| MCPClient.world :=
         acquired_world w (MCPClient.url c)
           [Acquire (Transport (MCPClient.url c)); Acquire (Session (next_ref w));
            Sent 0 Handshake] Ready 1;
       MCPClient.self :=
         {| MCPClient.url := MCPClient.url c;
            MCPClient.stack :=
              (MCPClient.stack c
               ++ [ExitOf (Transport (MCPClient.url c)); ExitOf (Session (next_ref w))])
              ++ map CallbackOf post;
            MCPClient._sess := VSession (next_ref w) |} |}) as [H _].
  rewrite H. simpl. rewrite releases_app. simpl. rewrite app_nil_r.
  rewrite !rev_app_distr. simpl. rewrite <- ?app_assoc. reflexivity.
Qed.

Lemma facade_teardown_order_witness :
  releases (log (MCPClient.world
    (MCPClient.__aexit__ all_ok None
       (push_all [Deferred "late"]
          (MCPClient.__aenter__ all_ok
             {| MCPClient.world := empty_world;
                MCPClient.self := client_with_early_callback |}).2).2).2))
  = [CallbackOf (Deferred "late"); ExitOf (Session 0); ExitOf (Transport mcp_url);
     CallbackOf (Deferred "early")].
Proof.
  exact (facade_teardown_order all_ok empty_world client_with_early_callback
           [Deferred "late"] None eq_refl).
Defined.

(** C7, as stated, fails: a callback pushed on the facade's stack inside the
    scope runs before the Session's close, not after the Transport's. *)
Lemma late_callback_runs_first :
  teardown_with_late_callback
  = [CallbackOf (Deferred "flush"); ExitOf (Session 0); ExitOf (Transport mcp_url)]
  /\ teardown_with_late_callback
     <> [ExitOf (Session 0); ExitOf (Transport mcp_url); CallbackOf (Deferred "flush")].
Proof.
  assert (H : teardown_with_late_callback
              = [CallbackOf (Deferred "flush"); ExitOf (Session 0);
                 ExitOf (Transport mcp_url)]) by (vm_compute; reflexivity).
  split; [exact H|]. rewrite H. discriminate.
Qed.

(** C9, as amended.  Whatever exception details it is given, [__aexit__]
    closes the stack (every entry released, none left), behaves the same as
    with no details, and never suppresses by its return value: when it
    returns, which is when every release step succeeded, it returns None,
    which is not truthy, and the scope then ends as its body did, a failure
    of the body propagating after the teardown.  When a release step failed,
    [__aexit__] raises the teardown failure, and it is that failure which
    leaves the scope, in place of the body's result or failure. *)
Theorem aexit_closes_and_never_suppresses (env : Env) (args : option exn)
    (s : MCPClient.state) :
  MCPClient.__aexit__ env args s = MCPClient.__aexit__ env None s
  /\ MCPClient.stack (MCPClient.self (MCPClient.__aexit__ env args s).2) = []
  /\ releases (log (MCPClient.world (MCPClient.__aexit__ env args s).2))
     = releases (log (MCPClient.world s)) ++ rev (MCPClient.stack (MCPClient.self s))
  /\ match (MCPClient.__aexit__ env args s).1 with
     | Ok v => v = VNone /\ truthy v = false /\ teardown_failures env s = []
     | Raise e' =>
         e' = Exn TeardownFailure (teardown_failures env s)
         /\ ∃ k fs, teardown_failures env s = k :: fs
     end
  /\ ∀ (A : Type) (r : result A),
       (exit_scope (MCPClient.__aexit__ env) r s).1
       = match teardown_failures env s with
         | [] => match r with
                 | Ok a => Ok (Some a)
                 | Raise e => Raise e
                 end
         | fs => Raise (Exn TeardownFailure fs)
         end.
Proof.
  split; [reflexivity|].
  destruct (client_aexit_releases env args s) as [Hrel Hstk].
  split; [exact Hstk|]. split; [exact Hrel|]. split.
  - rewrite client_aexit_result.
    destruct (teardown_failures env s) as [|k fs]; simpl; eauto.
  - intros A [a|e]; unfold exit_scope.
    + pose proof (client_aexit_result env None s) as Hres.
      destruct (MCPClient.__aexit__ env None s) as [[v|x] s']; simpl in Hres;
        destruct (teardown_failures env s) as [|k fs]; try discriminate.
      * reflexivity.
      * injection Hres as ->. reflexivity.
    + pose proof (client_aexit_result env (Some e) s) as Hres.
      destruct (MCPClient.__aexit__ env (Some e) s) as [[v|x] s']; simpl in Hres;
        destruct (teardown_failures env s) as [|k fs]; try discriminate.
      * injection Hres as ->. reflexivity.
      * injection Hres as ->. reflexivity.
Qed.

(** C9, as stated, fails: when the body of the scope fails with a tool error
    and the release steps fail, the scope ends in the teardown failure; the
    body's failure does not propagate and is not among the errors the
    teardown failure carries. *)
Lemma teardown_failure_replaces_body_failure :
  scope_with_failing_teardown
  = Raise (Exn TeardownFailure [Failure "release"; Failure "release"])
  /\ scope_with_failing_teardown <> Raise (raise_kind RemoteToolError)
  /\ ¬ fails_with RemoteToolError scope_with_failing_teardown.
Proof.
  assert (H : scope_with_failing_teardown
              = Raise (Exn TeardownFailure [Failure "release"; Failure "release"]))
    by (vm_compute; reflexivity).
  split; [exact H|]. rewrite H. split; [discriminate|]. simpl. discriminate.
Qed.

(** ** client.py: acquisition *)

(** C8.  A successful acquisition logs, in this order and nothing else: the
    Transport's acquire step, the Session's acquire step, one handshake.  The
    Session was built over the two halves of that Transport and is [Ready];
    it is bound to [self._sess]; both release steps are recorded.  The body
    of the facade's scope starts from that state, so any list or call
    operation in it comes after the one handshake. *)
Theorem acquisition_order (env : Env) (w : World) (c : MCPClient.t)
    (A : Type) (body : M MCPClient.state A) :
  (MCPClient.__aenter__ env {| MCPClient.world := w; MCPClient.self := c |}).1 = Ok () ->
  ∃ s1 : MCPClient.state,
    MCPClient.__aenter__ env {| MCPClient.world := w; MCPClient.self := c |} = (Ok (), s1)
    /\ log (MCPClient.world s1)
       = log w ++ [Acquire (Transport (MCPClient.url c));
                   Acquire (Session (next_ref w));
                   Sent 0 Handshake]
    /\ sessions (MCPClient.world s1) !! next_ref w
       = Some {| s_read := VStream ReadHalf (MCPClient.url c);
                 s_write := VStream WriteHalf (MCPClient.url c);
                 s_state := Ready; s_next_id := 1 |}
    /\ MCPClient._sess (MCPClient.self s1) = VSession (next_ref w)
    /\ MCPClient.stack (MCPClient.self s1)
       = MCPClient.stack c ++ [ExitOf (Transport (MCPClient.url c));
                               ExitOf (Session (next_ref w))]
    /\ MCPClient.scoped env body {| MCPClient.world := w; MCPClient.self := c |}
       = (let '(r, s2) := body s1 in exit_scope (MCPClient.__aexit__ env) r s2).
Proof.
  unfold MCPClient.scoped, async_with. rewrite aenter_cases.
  destruct (acquire_outcome env (Transport (MCPClient.url c))); [discriminate|].
  destruct (acquire_outcome env (Session (next_ref w))); [discriminate|].
  simpl. destruct (handshake_ack env); [|discriminate]. intros _.
  eexists. split; [reflexivity|]. simpl.
  repeat split. apply lookup_insert_eq.
Qed.

Lemma acquisition_order_witness :
  ∃ s1 : MCPClient.state,
    MCPClient.__aenter__ all_ok (fresh mcp_url empty_world) = (Ok (), s1)
    /\ log (MCPClient.world s1)
       = [Acquire (Transport mcp_url); Acquire (Session 0); Sent 0 Handshake]
    /\ sessions (MCPClient.world s1) !! 0
       = Some {| s_read := VStream ReadHalf mcp_url;
                 s_write := VStream WriteHalf mcp_url;
                 s_state := Ready; s_next_id := 1 |}
    /\ MCPClient._sess (MCPClient.self s1) = VSession 0
    /\ MCPClient.stack (MCPClient.self s1)
       = [ExitOf (Transport mcp_url); ExitOf (Session 0)]
    /\ MCPClient.scoped all_ok (MCPClient.list_tool_names all_ok)
         (fresh mcp_url empty_world)
       = (let '(r, s2) := MCPClient.list_tool_names all_ok s1 in
          exit_scope (MCPClient.__aexit__ all_ok) r s2).
Proof.
  exact (acquisition_order all_ok empty_world (MCPClient.__init__ mcp_url)
           (list string) (MCPClient.list_tool_names all_ok) eq_refl).
Defined.

(** The acquisition releases nothing, however it ends. *)
Lemma aenter_releases_nothing (env : Env) (s : MCPClient.state) :
  releases (log (MCPClient.world (MCPClient.__aenter__ env s).2))
  = releases (log (MCPClient.world s)).
Proof.
  destruct s as [w c]. rewrite aenter_cases.
  destruct (acquire_outcome env (Transport (MCPClient.url c)));
    [simpl; rewrite releases_app, app_nil_r; reflexivity|].
  destruct (acquire_outcome env (Session (next_ref w)));
    [simpl; rewrite releases_app, app_nil_r; reflexivity|].
  simpl. destruct (handshake_ack env); simpl;
    rewrite releases_app, app_nil_r; reflexivity.
Qed.

(** A failing acquisition is the whole of the scope: neither the body nor
    [__aexit__] runs. *)
Lemma scoped_failed_acquisition (env : Env) (A : Type) (body : M MCPClient.state A)
    (s : MCPClient.state) (e : exn) (s1 : MCPClient.state) :
  MCPClient.__aenter__ env s = (Raise e, s1) ->
  MCPClient.scoped env body s = (Raise e, s1).
Proof.
  intros H. unfold MCPClient.scoped, async_with. rewrite H. reflexivity.
Qed.

(** C2, on the code.  The transport opens, the session is entered, the
    handshake is never acknowledged: the scope of the facade fails with the
    acquisition failure while no release step at all has been invoked; the
    Transport's and the Session's release steps are still on the stack. *)
Theorem handshake_timeout_leaves_transport_open (A : Type)
    (body : M MCPClient.state A) :
  (MCPClient.scoped handshake_times_out body (fresh mcp_url empty_world)).1
  = Raise (raise_kind AcquisitionFailure)
  /\ acquires (log (MCPClient.world
       (MCPClient.scoped handshake_times_out body (fresh mcp_url empty_world)).2))
     = [Transport mcp_url; Session 0]
  /\ releases (log (MCPClient.world
       (MCPClient.scoped handshake_times_out body (fresh mcp_url empty_world)).2))
     = []
  /\ MCPClient.stack (MCPClient.self
       (MCPClient.scoped handshake_times_out body (fresh mcp_url empty_world)).2)
     = [ExitOf (Transport mcp_url); ExitOf (Session 0)].
Proof.
  unfold MCPClient.scoped, async_with, fresh.
  rewrite aenter_cases. simpl. repeat split.
Qed.

(** ** client.py: operations *)

(** A session that is not [Ready] refuses an operation and sends nothing. *)
Lemma expect_mismatch (ref : nat) (st : SessionState) (w : World) :
  match sessions w !! ref with
  | Some so => s_state so <> st
  | None => True
  end ->
  ClientSession.expect ref st w = (Raise (raise_kind ProtocolMisuseError), w).
Proof.
  unfold ClientSession.expect. unfold_monad.
  destruct (sessions w !! ref) as [so|]; [|reflexivity].
  intros H. destruct (decide (s_state so = st)); [contradiction|reflexivity].
Qed.

(** C3, as amended.  On a client for which [initialize()] has not yet run,
    [call_tool] fails and sends nothing (the state is untouched): with an
    AttributeError when the client holds no session, which is the case of
    every client that was not acquired, and with a ProtocolMisuseError,
    raised by the Session, when it holds one. *)
Theorem call_tool_before_initialize (env : Env) (s : MCPClient.state)
    (tool_name : string) (tool_input : value) :
  not_initialized s ->
  MCPClient.call_tool env tool_name tool_input s
  = (Raise (raise_kind (if holds_session s then ProtocolMisuseError
                        else AttributeError)), s)
  /\ sent (log (MCPClient.world (MCPClient.call_tool env tool_name tool_input s).2))
     = sent (log (MCPClient.world s)).
Proof.
  intros Hs.
  enough (H : MCPClient.call_tool env tool_name tool_input s
              = (Raise (raise_kind (if holds_session s then ProtocolMisuseError
                                    else AttributeError)), s))
    by (rewrite H; split; reflexivity).
  revert Hs.
  destruct s as [w [u stk sess]].
  unfold not_initialized, holds_session, MCPClient.call_tool, MCPClient.get,
    MCPClient.session_of, MCPClient.in_world, ClientSession.call_tool.
  cbv [mbind M_bind mret M_ret raise]. simpl.
  destruct sess; try reflexivity.
  intros H. rewrite expect_mismatch; [reflexivity|].
  simpl in *. destruct (sessions w !! ref) as [so|]; [|exact I].
  rewrite H. discriminate.
Qed.

Lemma call_tool_before_initialize_witness :
  MCPClient.call_tool all_ok "get_greeting" (VDict [("name", VStr "Alice")])
    entered_not_initialized
  = (Raise (raise_kind ProtocolMisuseError), entered_not_initialized)
  /\ sent (log (MCPClient.world
       (MCPClient.call_tool all_ok "get_greeting" (VDict [("name", VStr "Alice")])
          entered_not_initialized).2))
     = [].
Proof.
  exact (call_tool_before_initialize all_ok entered_not_initialized
           "get_greeting" (VDict [("name", VStr "Alice")]) eq_refl).
Defined.

(** C3, as stated, fails: on a client that was never acquired, [call_tool]
    fails with an AttributeError, not with a ProtocolMisuseError. *)
Lemma call_tool_on_fresh_client :
  not_initialized (fresh mcp_url empty_world)
  /\ MCPClient.call_tool all_ok "get_greeting" (VDict [("name", VStr "Alice")])
       (fresh mcp_url empty_world)
     = (Raise (raise_kind AttributeError), fresh mcp_url empty_world)
  /\ ¬ fails_with ProtocolMisuseError
       (MCPClient.call_tool all_ok "get_greeting" (VDict [("name", VStr "Alice")])
          (fresh mcp_url empty_world)).1.
Proof.
  split; [exact I|]. split; [reflexivity|]. simpl. discriminate.
Qed.

(** C4.  On a client that holds a session, [list_tool_names] is the
    Session's [list_tools] followed by the projection of every descriptor
    to its name, in order: the same requests are sent, a failure of the
    Session is passed on, and a response with the descriptors [ts] yields
    [map name ts]. *)
Theorem list_tool_names_projects_names (env : Env) (s : MCPClient.state) (ref : nat) :
  MCPClient._sess (MCPClient.self s) = VSession ref ->
  (MCPClient.list_tool_names env s).1
  = match (ClientSession.list_tools env ref (MCPClient.world s)).1 with
    | Ok r => Ok (map name (tools r))
    | Raise e => Raise e
    end
  /\ MCPClient.world (MCPClient.list_tool_names env s).2
     = (ClientSession.list_tools env ref (MCPClient.world s)).2
  /\ MCPClient.self (MCPClient.list_tool_names env s).2 = MCPClient.self s.
Proof.
  destruct s as [w [u stk sess]]. simpl. intros ->.
  unfold MCPClient.list_tool_names, MCPClient.get, MCPClient.session_of,
    MCPClient.in_world.
  cbv [mbind M_bind mret M_ret]. simpl.
  destruct (ClientSession.list_tools env ref w) as [[r|e] w']; simpl; auto.
Qed.

Lemma list_tool_names_projects_names_witness :
  (MCPClient.list_tool_names all_ok ready_client).1 = Ok ["get_greeting"]
  /\ MCPClient.world (MCPClient.list_tool_names all_ok ready_client).2
     = (ClientSession.list_tools all_ok 0 (MCPClient.world ready_client)).2
  /\ MCPClient.self (MCPClient.list_tool_names all_ok ready_client).2
     = MCPClient.self ready_client.
Proof.
  exact (list_tool_names_projects_names all_ok ready_client 0 eq_refl).
Defined.

(** On a [Ready] session the names are those of the server's descriptors,
    as many and in the same order. *)
Lemma list_tool_names_ready (env : Env) (s : MCPClient.state) (ref : nat)
    (so : SessionObj) :
  MCPClient._sess (MCPClient.self s) = VSession ref ->
  sessions (MCPClient.world s) !! ref = Some so ->
  s_state so = Ready ->
  (ClientSession.list_tools env ref (MCPClient.world s)).1
  = Ok {| tools := server_tools env |}
  /\ (MCPClient.list_tool_names env s).1 = Ok (map name (server_tools env)).
Proof.
  intros Hsess Hso Hst.
  destruct (list_tool_names_projects_names env s ref Hsess) as [H _].
  rewrite H. clear H.
  unfold ClientSession.list_tools, ClientSession.expect, ClientSession.send.
  unfold_monad. rewrite Hso.
  destruct (decide (s_state so = Ready)); [|contradiction]. auto.
Qed.

(** C5.  When the name is empty or the input is not a mapping, [call_tool]
    fails and sends nothing: the state, the log of the wire included, is
    the one the call started from. *)
Theorem call_tool_validates_arguments (env : Env) (s : MCPClient.state)
    (tool_name : string) (tool_input : value) :
  tool_name = "" \/ ClientSession.is_mapping tool_input = false ->
  (∃ e : exn,
     MCPClient.call_tool env tool_name tool_input s = (Raise e, s))
  /\ sent (log (MCPClient.world (MCPClient.call_tool env tool_name tool_input s).2))
     = sent (log (MCPClient.world s)).
Proof.
  intros Hbad.
  enough (H : ∃ e : exn,
            MCPClient.call_tool env tool_name tool_input s = (Raise e, s))
    by (split; [exact H|]; destruct H as [e ->]; reflexivity).
  assert (Hcheck : String.eqb tool_name "" || negb (ClientSession.is_mapping tool_input)
                   = true).
  { destruct Hbad as [-> | ->]; [reflexivity|]. apply orb_true_r. }
  destruct s as [w [u stk sess]].
  unfold MCPClient.call_tool, MCPClient.get, MCPClient.session_of,
    MCPClient.in_world, ClientSession.call_tool, ClientSession.expect.
  unfold_monad.
  destruct sess; simpl; try (eexists; reflexivity).
  destruct (sessions w !! ref) as [so|]; [|eexists; reflexivity].
  destruct (decide (s_state so = Ready)); [|eexists; reflexivity].
  rewrite Hcheck. eexists; reflexivity.
Qed.

Lemma call_tool_validates_arguments_witness :
  (∃ e : exn,
     MCPClient.call_tool all_ok "" (VDict [("name", VStr "Alice")]) ready_client
     = (Raise e, ready_client))
  /\ sent (log (MCPClient.world
       (MCPClient.call_tool all_ok "" (VDict [("name", VStr "Alice")])
          ready_client).2))
     = [(0, Handshake)].
Proof.
  exact (call_tool_validates_arguments all_ok ready_client ""
           (VDict [("name", VStr "Alice")]) (or_introl eq_refl)).
Defined.

(** C6.  On a client that holds a session, the facade's [call_tool] is the
    Session's [call_tool] on the same arguments: same result or same
    failure, same effect on the world, and [self] is left as it was. *)
Theorem facade_call_tool_is_session_call_tool (env : Env) (s : MCPClient.state)
    (ref : nat) (tool_name : string) (tool_input : value) :
  MCPClient._sess (MCPClient.self s) = VSession ref ->
  (MCPClient.call_tool env tool_name tool_input s).1
  = (ClientSession.call_tool env ref tool_name tool_input (MCPClient.world s)).1
  /\ MCPClient.world (MCPClient.call_tool env tool_name tool_input s).2
     = (ClientSession.call_tool env ref tool_name tool_input (MCPClient.world s)).2
  /\ MCPClient.self (MCPClient.call_tool env tool_name tool_input s).2
     = MCPClient.self s.
Proof.
  destruct s as [w [u stk sess]]. simpl. intros ->.
  unfold MCPClient.call_tool, MCPClient.get, MCPClient.session_of,
    MCPClient.in_world.
  cbv [mbind M_bind mret M_ret]. simpl.
  destruct (ClientSession.call_tool env ref tool_name tool_input w) as [r w'].
  auto.
Qed.

Lemma facade_call_tool_is_session_call_tool_witness :
  (MCPClient.call_tool all_ok "get_greeting" (VDict [("name", VStr "Alice")])
     ready_client).1
  = Ok {| structuredContent := VDict [("result", VStr "Hello, Alice!")];
          isError := false |}
  /\ MCPClient.world (MCPClient.call_tool all_ok "get_greeting"
       (VDict [("name", VStr "Alice")]) ready_client).2
     = (ClientSession.call_tool all_ok 0 "get_greeting"
          (VDict [("name", VStr "Alice")]) (MCPClient.world ready_client)).2
  /\ MCPClient.self (MCPClient.call_tool all_ok "get_greeting"
       (VDict [("name", VStr "Alice")]) ready_client).2
     = MCPClient.self ready_client.
Proof.
  exact (facade_call_tool_is_session_call_tool all_ok ready_client 0
           "get_greeting" (VDict [("name", VStr "Alice")]) eq_refl).
Defined.

(** ** The scenarios of the demo *)

(** A non-mapping input is refused by the validation on a ready client. *)
Example call_tool_rejects_non_mapping :
  (MCPClient.call_tool all_ok "get_greeting" (VStr "Alice") ready_client).1
  = Raise (raise_kind InvalidArgument).
Proof. vm_compute. reflexivity. Qed.

(** An unknown tool is a tool-level error of the server, and the request
    did go on the wire. *)
Example call_tool_unknown_tool :
  (MCPClient.call_tool all_ok "missing_tool" (VDict []) ready_client).1
  = Raise (raise_kind RemoteToolError)
  /\ sent (log (MCPClient.world
       (MCPClient.call_tool all_ok "missing_tool" (VDict []) ready_client).2))
     = [(0, Handshake); (1, CallTool "missing_tool" (VDict []))].
Proof. vm_compute. split; reflexivity. Qed.

(** main of client.py against a server that greets. *)
Example client_main_run :
  (MCPClient.main all_ok empty_world).1 = Ok (Some ())
  /\ log (MCPClient.main all_ok empty_world).2
     = [Acquire (Transport mcp_url); Acquire (Session 0); Sent 0 Handshake;
        Sent 1 (CallTool "get_greeting" (VDict [("name", VStr "Alice")]));
        PrintArgs [VStr "Tool output:"; VDict [("result", VStr "Hello, Alice!")]];
        Release (ExitOf (Session 0)); Release (ExitOf (Transport mcp_url))].
Proof. vm_compute. split; reflexivity. Qed.

(** * Further properties of the code *)

(** ** practice.py: the context manager of get_connection *)

Lemma prints_app (l1 l2 : list event) :
  prints (l1 ++ l2) = prints l1 ++ prints l2.
Proof.
  induction l1 as [|ev l1 IH]; [reflexivity|].
  destruct ev; simpl; rewrite IH; reflexivity.
Qed.

(** X1.  [async with await get_connection(name) as a: body] is a plain
    bracket around the body: the body runs with [a = name] after the ENTER
    line, the EXIT line is printed whether the body returns or raises, and
    the body's result or failure comes out unchanged ([__aexit__] returns
    None, so nothing is suppressed). *)
Theorem ctx_scope_is_transparent (A : Type) (nm : string)
    (body : value -> M World A) (w : World) :
  async_with (ctx.__aenter__ nm) (ctx.__aexit__ nm) body w
  = (let '(r, w2) :=
       body (VStr nm)
         {| log := log w ++ [Print ("ENTER..." ++ nm)%string];
            sessions := sessions w; next_ref := next_ref w |} in
     (match r with Ok a => Ok (Some a) | Raise e => Raise e end,
      {| log := log w2 ++ [Print ("EXIT! " ++ nm)%string];
         sessions := sessions w2; next_ref := next_ref w2 |})).
Proof.
  unfold async_with, exit_scope. unfold_monad. simpl.
  destruct (body (VStr nm) _) as [[a|e] w2]; reflexivity.
Qed.

Section Connections.

Variable env : Env.

(** Entering connections: always succeeds, prints the ENTER lines in order,
    records the exits in order. *)
Lemma run_connections (names : list string) (st : AsyncExitStack.t) :
  (run_steps env (connections names) st).1 = Ok ()
  /\ prints (log (AsyncExitStack.world (run_steps env (connections names) st).2))
     = prints (log (AsyncExitStack.world st))
       ++ map (λ n, ("ENTER..." ++ n)%string) names
  /\ AsyncExitStack.exit_callbacks (run_steps env (connections names) st).2
     = AsyncExitStack.exit_callbacks st ++ map (λ n, ExitOf (Conn n)) names.
Proof.
  revert st. induction names as [|n names IH]; intros [w stk]; simpl.
  - rewrite !app_nil_r. auto.
  - unfold_monad. cbv [acquire]. unfold_monad. simpl.
    match goal with
    | |- context [run_steps env (connections names) ?st] =>
        destruct (IH st) as (H1 & H2 & H3)
    end.
    simpl in *. rewrite H1, H2, H3, !prints_app. simpl.
    rewrite <- !app_assoc. auto.
Qed.

(** Unwinding exits of connections: none fails, the EXIT lines are printed
    in the order of the unwinding. *)
Lemma unwind_connections (names : list string) (exc : option exn)
    (failed : list exn_kind) (w : World) :
  (AsyncExitStack.unwind env (map (λ n, ExitOf (Conn n)) names) exc failed w).1 = failed
  /\ prints (log (AsyncExitStack.unwind env (map (λ n, ExitOf (Conn n)) names)
                    exc failed w).2)
     = prints (log w) ++ map (λ n, ("EXIT! " ++ n)%string) names.
Proof.
  revert w. induction names as [|n names IH]; intros w; simpl.
  - rewrite app_nil_r. auto.
  - cbv [release]. unfold_monad. simpl.
    match goal with
    | |- context [AsyncExitStack.unwind env _ exc failed ?w'] =>
        destruct (IH w') as (H1 & H2)
    end.
    split; [exact H1|]. rewrite H2. simpl. rewrite !prints_app. simpl.
    rewrite app_nil_r, <- app_assoc. reflexivity.
Qed.

End Connections.

(** X2.  For every list of names, entering [get_connection(n)] for each of
    them on one stack never fails, prints the ENTER lines in the order of
    the names and, on leaving the stack, the EXIT lines in the reverse
    order. *)
Theorem connections_nest (env : Env) (names : list string) (w : World) :
  (with_stack env (run_steps env (connections names)) w).1 = Ok (Some ())
  /\ prints (log (with_stack env (run_steps env (connections names)) w).2)
     = prints (log w)
       ++ map (λ n, ("ENTER..." ++ n)%string) names
       ++ map (λ n, ("EXIT! " ++ n)%string) (rev names).
Proof.
  unfold with_stack, async_with, exit_scope. unfold_monad.
  set (st0 := {| AsyncExitStack.world := w; AsyncExitStack.exit_callbacks := [] |}).
  destruct (run_connections env names st0) as (H1 & H2 & H3).
  destruct (run_steps env (connections names) st0) as [r [w1 stk]].
  simpl in *. subst r stk.
  unfold AsyncExitStack.__aexit__. simpl. rewrite <- map_rev.
  destruct (unwind_connections env (rev names) None [] w1) as (U1 & U2).
  destruct (AsyncExitStack.unwind env _ None [] w1) as [failed w2].
  simpl in *. subst failed. simpl. rewrite U2, H2, <- app_assoc. auto.
Qed.

(** ** client.py: the failure paths of the acquisition *)

(** X3.  When the transport cannot be opened, [__aenter__] fails with the
    transport's failure and leaves the client as it was: nothing recorded on
    the stack, no session built or bound, nothing sent. *)
Theorem aenter_transport_failure (env : Env) (w : World) (c : MCPClient.t)
    (k : exn_kind) :
  acquire_outcome env (Transport (MCPClient.url c)) = Some k ->
  MCPClient.__aenter__ env {| MCPClient.world := w; MCPClient.self := c |}
  = (Raise (raise_kind k),
     {| MCPClient.world :=
          {| log := log w ++ [Acquire (Transport (MCPClient.url c))];
             sessions := sessions w; next_ref := next_ref w |};
        MCPClient.self := c |}).
Proof.
  intros H. rewrite aenter_cases, H. unfold acquired_self.
  destruct c as [u stk sess]. simpl. rewrite app_nil_r. reflexivity.
Qed.

Lemma aenter_transport_failure_witness :
  MCPClient.__aenter__ transport_down (fresh mcp_url empty_world)
  = (Raise (raise_kind ConnectionLostError),
     {| MCPClient.world :=
          {| log := [Acquire (Transport mcp_url)]; sessions := ∅; next_ref := 0 |};
        MCPClient.self := MCPClient.__init__ mcp_url |}).
Proof.
  exact (aenter_transport_failure transport_down empty_world
           (MCPClient.__init__ mcp_url) ConnectionLostError eq_refl).
Defined.

(** X4.  When the transport opens and the session cannot be entered,
    [__aenter__] fails with the session's failure; the transport's release
    step is the only one recorded, [self._sess] is not bound (the assignment
    comes after the entry), and no handshake was sent. *)
Theorem aenter_session_failure (env : Env) (w : World) (c : MCPClient.t)
    (k : exn_kind) :
  acquire_outcome env (Transport (MCPClient.url c)) = None ->
  acquire_outcome env (Session (next_ref w)) = Some k ->
  (MCPClient.__aenter__ env {| MCPClient.world := w; MCPClient.self := c |}).1
  = Raise (raise_kind k)
  /\ MCPClient.stack (MCPClient.self
       (MCPClient.__aenter__ env {| MCPClient.world := w; MCPClient.self := c |}).2)
     = MCPClient.stack c ++ [ExitOf (Transport (MCPClient.url c))]
  /\ MCPClient._sess (MCPClient.self
       (MCPClient.__aenter__ env {| MCPClient.world := w; MCPClient.self := c |}).2)
     = MCPClient._sess c
  /\ sent (log (MCPClient.world
       (MCPClient.__aenter__ env {| MCPClient.world := w; MCPClient.self := c |}).2))
     = sent (log w).
Proof.
  intros Ht Hs. rewrite aenter_cases, Ht, Hs. simpl.
  rewrite sent_app, app_nil_r. auto.
Qed.

Lemma aenter_session_failure_witness :
  (MCPClient.__aenter__ session_refused (fresh mcp_url empty_world)).1
  = Raise (raise_kind (Failure "session"))
  /\ MCPClient.stack (MCPClient.self
       (MCPClient.__aenter__ session_refused (fresh mcp_url empty_world)).2)
     = [ExitOf (Transport mcp_url)]
  /\ MCPClient._sess (MCPClient.self
       (MCPClient.__aenter__ session_refused (fresh mcp_url empty_world)).2)
     = VNone
  /\ sent (log (MCPClient.world
       (MCPClient.__aenter__ session_refused (fresh mcp_url empty_world)).2))
     = [].
Proof.
  exact (aenter_session_failure session_refused empty_world
           (MCPClient.__init__ mcp_url) (Failure "session") eq_refl eq_refl).
Defined.

(** X5.  Whenever [__aenter__] fails, in any environment and on any client,
    the [async with] of the facade ends there: the scope's result and state
    are those of [__aenter__], so neither the body nor [__aexit__] runs, and
    no release step has been invoked. *)
Theorem failed_acquisition_skips_body_and_exit (env : Env) (A : Type)
    (body : M MCPClient.state A) (s : MCPClient.state) (e : exn) :
  (MCPClient.__aenter__ env s).1 = Raise e ->
  MCPClient.scoped env body s = (Raise e, (MCPClient.__aenter__ env s).2)
  /\ releases (log (MCPClient.world (MCPClient.scoped env body s).2))
     = releases (log (MCPClient.world s)).
Proof.
  intros H.
  assert (Hs : MCPClient.scoped env body s
               = (Raise e, (MCPClient.__aenter__ env s).2)).
  { apply scoped_failed_acquisition.
    destruct (MCPClient.__aenter__ env s) as [r s1]. simpl in *. subst r.
    reflexivity. }
  split; [exact Hs|]. rewrite Hs. simpl. apply aenter_releases_nothing.
Qed.

Lemma failed_acquisition_skips_body_and_exit_witness :
  MCPClient.scoped handshake_times_out (MCPClient.list_tool_names handshake_times_out)
    (fresh mcp_url empty_world)
  = (Raise (raise_kind AcquisitionFailure),
     (MCPClient.__aenter__ handshake_times_out (fresh mcp_url empty_world)).2)
  /\ releases (log (MCPClient.world
       (MCPClient.scoped handshake_times_out
          (MCPClient.list_tool_names handshake_times_out)
          (fresh mcp_url empty_world)).2))
     = [].
Proof.
  exact (failed_acquisition_skips_body_and_exit handshake_times_out (list string)
           (MCPClient.list_tool_names handshake_times_out)
           (fresh mcp_url empty_world) (raise_kind AcquisitionFailure) eq_refl).
Defined.

(** What the acquisition leaves on the stack. *)
Lemma aenter_stack (env : Env) (w : World) (c : MCPClient.t) :
  MCPClient.stack (MCPClient.self
    (MCPClient.__aenter__ env {| MCPClient.world := w; MCPClient.self := c |}).2)
  = MCPClient.stack c ++ recorded_by_aenter env w c.
Proof.
  rewrite aenter_cases. unfold recorded_by_aenter.
  destruct (acquire_outcome env (Transport (MCPClient.url c))); [reflexivity|].
  destruct (acquire_outcome env (Session (next_ref w))); [reflexivity|].
  simpl. destruct (handshake_ack env); reflexivity.
Qed.

(** X6.  However [__aenter__] ended, it kept what was on the stack and
    added the release steps of what it entered; an [__aexit__] called then
    releases exactly those, the session before the transport, and then what
    was on the stack before.  So a caller who catches a failed acquisition
    can still release what it opened. *)
Theorem release_after_any_acquisition (env : Env) (w : World) (c : MCPClient.t)
    (args : option exn) :
  MCPClient.stack (MCPClient.self
    (MCPClient.__aenter__ env {| MCPClient.world := w; MCPClient.self := c |}).2)
  = MCPClient.stack c ++ recorded_by_aenter env w c
  /\ releases (log (MCPClient.world
       (MCPClient.__aexit__ env args
          (MCPClient.__aenter__ env
             {| MCPClient.world := w; MCPClient.self := c |}).2).2))
     = releases (log w) ++ rev (recorded_by_aenter env w c) ++ rev (MCPClient.stack c).
Proof.
  split; [apply aenter_stack|].
  destruct (client_aexit_releases env args
    (MCPClient.__aenter__ env {| MCPClient.world := w; MCPClient.self := c |}).2)
    as [H _].
  rewrite H, aenter_releases_nothing, aenter_stack, rev_app_distr. reflexivity.
Qed.

(** ** client.py: the release *)

(** X7.  A second [__aexit__] is a no-op: it returns None and leaves the
    state, log included, as the first one left it.  The first one leaves
    [self.url] and [self._sess] as they were: the client keeps its reference
    to the session. *)
Theorem aexit_twice (env : Env) (args1 args2 : option exn) (s : MCPClient.state) :
  MCPClient.__aexit__ env args2 (MCPClient.__aexit__ env args1 s).2
  = (Ok VNone, (MCPClient.__aexit__ env args1 s).2)
  /\ MCPClient.url (MCPClient.self (MCPClient.__aexit__ env args1 s).2)
     = MCPClient.url (MCPClient.self s)
  /\ MCPClient._sess (MCPClient.self (MCPClient.__aexit__ env args1 s).2)
     = MCPClient._sess (MCPClient.self s).
Proof.
  destruct s as [w [u stk sess]].
  unfold MCPClient.__aexit__, MCPClient.on_stack, AsyncExitStack.aclose,
    AsyncExitStack.__aexit__.
  cbv [mbind M_bind mret M_ret]. simpl.
  destruct (AsyncExitStack.unwind env (rev stk) None [] w) as [[|k fs] w'];
    simpl; auto.
Qed.

(** X8.  [list_tool_names] on a client that holds no session (one that was
    not acquired, or whose acquisition failed before the session was bound)
    fails with an AttributeError and changes nothing. *)
Theorem list_tool_names_without_session (env : Env) (s : MCPClient.state) :
  holds_session s = false ->
  MCPClient.list_tool_names env s = (Raise (raise_kind AttributeError), s).
Proof.
  destruct s as [w [u stk sess]]. unfold holds_session. simpl.
  destruct sess; intros H; try discriminate H; reflexivity.
Qed.

Lemma list_tool_names_without_session_witness :
  MCPClient.list_tool_names all_ok (fresh mcp_url empty_world)
  = (Raise (raise_kind AttributeError), fresh mcp_url empty_world).
Proof.
  exact (list_tool_names_without_session all_ok (fresh mcp_url empty_world) eq_refl).
Defined.

(** ** client.py: entering the same client again *)

(** X9.  Nothing guards the facade against being entered twice.  When both
    acquisitions succeed, the second opens a second transport and builds a
    second session, to which [self._sess] is rebound; the release steps of
    the first acquisition stay on the stack below those of the second, and
    one [__aexit__] releases all four, the newest session first. *)
Theorem reentered_client (env : Env) (w : World) (c : MCPClient.t)
    (args : option exn) :
  acquire_outcome env (Transport (MCPClient.url c)) = None ->
  acquire_outcome env (Session (next_ref w)) = None ->
  acquire_outcome env (Session (S (next_ref w))) = None ->
  handshake_ack env = true ->
  MCPClient._sess (MCPClient.self
    (entered_twice env {| MCPClient.world := w; MCPClient.self := c |}))
  = VSession (S (next_ref w))
  /\ MCPClient.stack (MCPClient.self
       (entered_twice env {| MCPClient.world := w; MCPClient.self := c |}))
     = MCPClient.stack c
       ++ [ExitOf (Transport (MCPClient.url c)); ExitOf (Session (next_ref w));
           ExitOf (Transport (MCPClient.url c)); ExitOf (Session (S (next_ref w)))]
  /\ releases (log (MCPClient.world
       (MCPClient.__aexit__ env args
          (entered_twice env {| MCPClient.world := w; MCPClient.self := c |})).2))
     = releases (log w)
       ++ [ExitOf (Session (S (next_ref w))); ExitOf (Transport (MCPClient.url c));
           ExitOf (Session (next_ref w)); ExitOf (Transport (MCPClient.url c))]
       ++ rev (MCPClient.stack c).
Proof.
  intros Ht Hs1 Hs2 Hack.
  assert (Hstk : MCPClient.stack (MCPClient.self
            (entered_twice env {| MCPClient.world := w; MCPClient.self := c |}))
          = MCPClient.stack c
            ++ [ExitOf (Transport (MCPClient.url c)); ExitOf (Session (next_ref w));
                ExitOf (Transport (MCPClient.url c));
                ExitOf (Session (S (next_ref w)))]).
  { unfold entered_twice. rewrite aenter_cases, Ht, Hs1. simpl. rewrite Hack.
    simpl. rewrite aenter_cases. simpl. rewrite Ht, Hs2. simpl. rewrite Hack.
    simpl. rewrite <- app_assoc. reflexivity. }
  split; [|split; [exact Hstk|]].
  - unfold entered_twice. rewrite aenter_cases, Ht, Hs1. simpl. rewrite Hack.
    simpl. rewrite aenter_cases. simpl. rewrite Ht, Hs2. simpl. rewrite Hack.
    reflexivity.
  - destruct (client_aexit_releases env args
      (entered_twice env {| MCPClient.world := w; MCPClient.self := c |})) as [H _].
    rewrite H, Hstk. unfold entered_twice.
    rewrite !aenter_releases_nothing. simpl.
    rewrite rev_app_distr. reflexivity.
Qed.

Lemma reentered_client_witness :
  MCPClient._sess (MCPClient.self (entered_twice all_ok (fresh mcp_url empty_world)))
  = VSession 1
  /\ MCPClient.stack (MCPClient.self
       (entered_twice all_ok (fresh mcp_url empty_world)))
     = [ExitOf (Transport mcp_url); ExitOf (Session 0);
        ExitOf (Transport mcp_url); ExitOf (Session 1)]
  /\ releases (log (MCPClient.world
       (MCPClient.__aexit__ all_ok None
          (entered_twice all_ok (fresh mcp_url empty_world))).2))
     = [ExitOf (Session 1); ExitOf (Transport mcp_url);
        ExitOf (Session 0); ExitOf (Transport mcp_url)].
Proof.
  exact (reentered_client all_ok empty_world (MCPClient.__init__ mcp_url) None
           eq_refl eq_refl eq_refl eq_refl).
Defined.

